(** * Azure OpenAI client: configuration contract and request shaping

    A shallow embedding of [azure_openai_client.py].  The module holds one
    class, [AzureOpenAIClient], whose constructor validates a dictionary of
    secrets and builds two library objects (a credential and a chat
    completion client), and whose two methods [chat] and
    [chat_with_template] build a prompt, send it and strip the answer.

    Python values are modelled as follows:
    - [str] is a list of Unicode code points;
    - a [dict] is an association list in insertion order;
    - an exception is a value of [exn], and a computation that may raise
      returns a [result];
    - a method is a function of the object and of the outside world that
      returns its outcome together with the object and the world it leaves;
    - the third-party objects (credential, completion client, network) are
      the fields of the class [Library]. *)

From Stdlib Require Import List NArith ZArith String Ascii Bool.
From Stdlib Require Import Permutation Lia PrimFloat.
Import ListNotations.

Local Open Scope list_scope.

(** ** Python strings *)

Definition str : Type := list N.

(** A string literal of the source, as its code points. *)
Definition lit (s : string) : str :=
  List.map N_of_ascii (list_ascii_of_string s).

Fixpoint str_eqb (a b : str) : bool :=
  match a, b with
  | [], [] => true
  | x :: a', y :: b' => N.eqb x y && str_eqb a' b'
  | _, _ => false
  end.

(** [str.isspace] on one code point (the table of CPython's
    [_PyUnicode_IsWhitespace]). *)
Definition isspace (c : N) : bool :=
  ((9 <=? c) && (c <=? 13) || (28 <=? c) && (c <=? 32)
   || (c =? 133) || (c =? 160) || (c =? 5760)
   || (8192 <=? c) && (c <=? 8202)
   || (c =? 8232) || (c =? 8233) || (c =? 8239) || (c =? 8287)
   || (c =? 12288))%N.

Fixpoint lstrip (s : str) : str :=
  match s with
  | c :: s' => if isspace c then lstrip s' else s
  | [] => []
  end.

Definition rstrip (s : str) : str := rev (lstrip (rev s)).

(** [s.strip()] with no argument. *)
Definition strip (s : str) : str := rstrip (lstrip s).

(** [sep.join(parts)]. *)
Fixpoint join (sep : str) (parts : list str) : str :=
  match parts with
  | [] => []
  | [p] => p
  | p :: rest => p ++ sep ++ join sep rest
  end.

Definition isdigit_ascii (c : N) : bool := ((48 <=? c) && (c <=? 57))%N.

Definition isalpha_ascii (c : N) : bool :=
  ((65 <=? c) && (c <=? 90) || (97 <=? c) && (c <=? 122) || (c =? 95))%N.

(** An ASCII identifier: a letter or underscore, then letters, digits and
    underscores.  These are the [{name}] placeholders of the templates, and
    the shape of every key the constructor looks up. *)
Definition is_identifier (s : str) : bool :=
  match s with
  | [] => false
  | c :: s' =>
      isalpha_ascii c
      && forallb (fun d => isalpha_ascii d || isdigit_ascii d) s'
  end.

(** [repr(s)] for a string without quotes, backslashes or unprintable
    characters (every identifier is one): the string between single
    quotes. *)
Definition repr_str (s : str) : str := lit "'" ++ s ++ lit "'".

(** [repr] of a list of such strings, which is also what an f-string
    prints for it. *)
Definition repr_list (l : list str) : str :=
  lit "[" ++ join (lit ", ") (List.map repr_str l) ++ lit "]".

(** ** Values, dictionaries, exceptions *)

(** The values a secrets dictionary holds: a string, or [None]
    ([os.getenv] returns [None] for a variable that is not set). *)
Inductive value : Type :=
| PyNone
| PyStr (s : str).

(** Truth value of a Python object: [None] and the empty string are
    false. *)
Definition truth (v : value) : bool :=
  match v with
  | PyNone => false
  | PyStr [] => false
  | PyStr (_ :: _) => true
  end.

Definition dict (V : Type) : Type := list (str * V).

Fixpoint dict_lookup {V : Type} (d : dict V) (key : str) : option V :=
  match d with
  | [] => None
  | (k, v) :: d' => if str_eqb k key then Some v else dict_lookup d' key
  end.

Definition dict_keys {V : Type} (d : dict V) : list str := List.map fst d.

(** [d.get(key)]: [None] when the key is absent. *)
Definition dict_get (d : dict value) (key : str) : value :=
  match dict_lookup d key with
  | Some v => v
  | None => PyNone
  end.

(** [d.get(key, default)]: the default only when the key is absent. *)
Definition dict_get_default (d : dict value) (key : str) (default : value)
  : value :=
  match dict_lookup d key with
  | Some v => v
  | None => default
  end.

Inductive exn : Type :=
| ValueError (msg : str)
| KeyError (keys : list str)
| TypeError (msg : str)
| LibraryError (msg : str).

Inductive result (A : Type) : Type :=
| Ok (a : A)
| Raise (e : exn).

Arguments Ok {A} a.
Arguments Raise {A} e.

Definition bind {A B : Type} (r : result A) (k : A -> result B) : result B :=
  match r with
  | Ok a => k a
  | Raise e => Raise e
  end.

Notation "x <- c ;; k" := (bind c (fun x => k))
  (at level 61, c at next level, right associativity).

(** [d[key]]: raises [KeyError] when the key is absent. *)
Definition dict_getitem {V : Type} (d : dict V) (key : str) : result V :=
  match dict_lookup d key with
  | Some v => Ok v
  | None => Raise (KeyError [key])
  end.

(** ** Messages and the format-string parser *)

Inductive BaseMessage : Type :=
| SystemMessage (content : str)
| HumanMessage (content : str).

(** A replacement field of a format string: its name, its format
    specification and its conversion character. *)
Record field : Type := {
  field_name : str;
  format_spec : str;
  conversion : option N
}.

(** What [string.Formatter().parse] yields: literal text, then the field
    that follows it, if any. *)
Definition chunk : Type := (str * option field)%type.

Definition LBRACE : N := 123.
Definition RBRACE : N := 125.
Definition LBRACKET : N := 91.
Definition RBRACKET : N := 93.
Definition COLON : N := 58.
Definition BANG : N := 33.

(** Where the parser is: in literal text, in a field name, in the
    brackets of a field name, at the conversion character, just after it,
    or in the format specification (with the depth of open braces). *)
Inductive mode : Type :=
| InText (text : str)
| InName (text name : str)
| InIndex (text name : str)
| AtConv (text name : str)
| AfterConv (text name : str) (conv : N)
| InSpec (text name : str) (conv : option N) (depth : nat) (spec : str).

Definition emit (c : chunk) (r : result (list chunk)) : result (list chunk) :=
  match r with
  | Ok l => Ok (c :: l)
  | Raise e => Raise e
  end.

Definition mk_field (name spec : str) (conv : option N) : option field :=
  Some {| field_name := name; format_spec := spec; conversion := conv |}.

(** The markup iterator behind [string.Formatter().parse]: doubled braces
    are literal braces, a single [{] opens a field that runs to its [}], a
    single [}] is an error. *)
Fixpoint scan (s : str) (m : mode) {struct s} : result (list chunk) :=
  match m, s with
  | InText text, [] =>
      match text with
      | [] => Ok []
      | _ :: _ => Ok [(text, None)]
      end
  | InText text, c :: rest =>
      if N.eqb c LBRACE then
        match rest with
        | [] =>
            Raise (ValueError (lit "Single '{' encountered in format string"))
        | d :: rest' =>
            if N.eqb d LBRACE
            then emit (text ++ [LBRACE], None) (scan rest' (InText []))
            else scan rest (InName text [])
        end
      else if N.eqb c RBRACE then
        match rest with
        | [] =>
            Raise (ValueError (lit "Single '}' encountered in format string"))
        | d :: rest' =>
            if N.eqb d RBRACE
            then emit (text ++ [RBRACE], None) (scan rest' (InText []))
            else
              Raise
                (ValueError (lit "Single '}' encountered in format string"))
        end
      else scan rest (InText (text ++ [c]))
  | InName _ _, [] =>
      Raise (ValueError (lit "expected '}' before end of string"))
  | InName text name, c :: rest =>
      if N.eqb c LBRACE then
        Raise (ValueError (lit "unexpected '{' in field name"))
      else if N.eqb c LBRACKET then scan rest (InIndex text (name ++ [c]))
      else if N.eqb c RBRACE then
        emit (text, mk_field name [] None) (scan rest (InText []))
      else if N.eqb c COLON then scan rest (InSpec text name None 1 [])
      else if N.eqb c BANG then scan rest (AtConv text name)
      else scan rest (InName text (name ++ [c]))
  | InIndex _ _, [] =>
      Raise (ValueError (lit "expected '}' before end of string"))
  | InIndex text name, c :: rest =>
      if N.eqb c RBRACKET then scan rest (InName text (name ++ [c]))
      else scan rest (InIndex text (name ++ [c]))
  | AtConv _ _, [] =>
      Raise
        (ValueError
           (lit "end of string while looking for conversion specifier"))
  | AtConv text name, c :: rest => scan rest (AfterConv text name c)
  | AfterConv _ _ _, [] =>
      Raise (ValueError (lit "unmatched '{' in format spec"))
  | AfterConv text name conv, c :: rest =>
      if N.eqb c RBRACE then
        emit (text, mk_field name [] (Some conv)) (scan rest (InText []))
      else if N.eqb c COLON then
        scan rest (InSpec text name (Some conv) 1 [])
      else Raise (ValueError (lit "expected ':' after conversion specifier"))
  | InSpec _ _ _ _ _, [] =>
      Raise (ValueError (lit "unmatched '{' in format spec"))
  | InSpec text name conv depth spec, c :: rest =>
      if N.eqb c LBRACE then
        scan rest (InSpec text name conv (S depth) (spec ++ [c]))
      else if N.eqb c RBRACE then
        match depth with
        | 0 | 1 =>
            emit (text, mk_field name spec conv) (scan rest (InText []))
        | S depth' => scan rest (InSpec text name conv depth' (spec ++ [c]))
        end
      else scan rest (InSpec text name conv depth (spec ++ [c]))
  end.

(** [string.Formatter().parse(format_string)], run to its end. *)
Definition formatter_parse (format_string : str) : result (list chunk) :=
  scan format_string (InText []).

(** The field names of a parsed template, in order of appearance. *)
Fixpoint chunk_fields (chunks : list chunk) : list str :=
  match chunks with
  | [] => []
  | (_, Some f) :: rest => field_name f :: chunk_fields rest
  | (_, None) :: rest => chunk_fields rest
  end.

Definition str_eq_dec : forall a b : str, {a = b} + {a <> b} :=
  list_eq_dec N.eq_dec.

Definition str_in (x : str) (l : list str) : bool := existsb (str_eqb x) l.

(** A [{name}] placeholder: an identifier, no conversion, no format
    specification. *)
Definition is_placeholder (f : field) : bool :=
  is_identifier (field_name f)
  && match format_spec f with [] => true | _ :: _ => false end
  && match conversion f with None => true | Some _ => false end.

(** ** The libraries the client is built on

    The constructor of the credential, the constructor of the completion
    client and the completion request itself belong to third-party
    packages; they are the operations of this class.  [llm_invoke] is the
    one outbound call of a chat: it acquires a token, sends the messages
    and returns the body of the completion or raises.
    [format_other_field] is [string.Formatter] on a replacement field that
    is not a [{name}] placeholder (conversions, format specifications,
    attribute and index lookups, positional fields).  [refuses_name] tells
    which field names that are not identifiers the prompt library refuses
    when it builds a template (none in its earlier versions; names with a
    dot or a bracket and names made of digits in its later ones). *)

Record TokenProvider (C : Type) : Type := {
  provider_credential : C;
  provider_scope : str
}.

Arguments provider_credential {C} _.
Arguments provider_scope {C} _.

(** The keyword arguments of [AzureChatOpenAI(...)]. *)
Record LLMArgs (C : Type) : Type := {
  azure_endpoint : value;
  azure_deployment : value;
  api_version : value;
  azure_ad_token_provider : TokenProvider C;
  temperature : float;
  max_tokens : Z
}.

Arguments azure_endpoint {C} _.
Arguments azure_deployment {C} _.
Arguments api_version {C} _.
Arguments azure_ad_token_provider {C} _.
Arguments temperature {C} _.
Arguments max_tokens {C} _.

Class Library : Type := {
  Credential : Type;
  LLM : Type;
  World : Type;
  ClientSecretCredential : value -> value -> value -> result Credential;
  AzureChatOpenAI : LLMArgs Credential -> result LLM;
  llm_invoke : LLM -> list BaseMessage -> World -> result str * World;
  format_other_field : dict str -> field -> result str;
  refuses_name : str -> bool
}.

(** A library for running the client on paper: every constructor accepts
    its arguments, the completion client is its own keyword arguments, and
    the world is a log of the requests sent together with the replies the
    service will give, in order. *)
Module Scripted.

Record world : Type := {
  sent : list (list BaseMessage);
  replies : list (result str)
}.

Definition invoke {L : Type} (_ : L) (messages : list BaseMessage)
    (w : world) : result str * world :=
  match replies w with
  | [] =>
      (Raise (LibraryError (lit "connection refused")),
       {| sent := sent w ++ [messages]; replies := [] |})
  | r :: rest => (r, {| sent := sent w ++ [messages]; replies := rest |})
  end.

#[local] Instance library : Library := {|
  Credential := value * value * value;
  LLM := LLMArgs (value * value * value);
  World := world;
  ClientSecretCredential := fun t c s => Ok (t, c, s);
  AzureChatOpenAI := fun args => Ok args;
  llm_invoke := invoke;
  format_other_field :=
    fun _ _ => Raise (ValueError (lit "field outside the model"));
  refuses_name :=
    fun name =>
      existsb (fun c => N.eqb c 46 || N.eqb c LBRACKET || N.eqb c RBRACKET)
              name
      || forallb isdigit_ascii name
|}.

End Scripted.

Section Client.

Context {L : Library}.

(** *** Prompt templates *)

Record PromptTemplate : Type := {
  template : str;
  input_variables : list str
}.

Inductive MessageLike : Type :=
| AMessage (m : BaseMessage)
| ATemplate (p : PromptTemplate).

Record ChatPromptTemplate : Type := {
  messages : list MessageLike;
  chat_input_variables : list str
}.

(** The variables of an f-string template: the field names the parser
    yields (the library keeps them as a sorted set; here they are in
    order of first appearance), unless the library refuses one that is
    not an identifier. *)
Definition get_template_variables (tpl : str) : result (list str) :=
  chunks <- formatter_parse tpl ;;
  let variables := nodup str_eq_dec (chunk_fields chunks) in
  if existsb (fun v => negb (is_identifier v) && refuses_name v) variables
  then Raise (ValueError (lit "Invalid variable name in f-string template"))
  else Ok variables.

(** [HumanMessagePromptTemplate.from_template(template)]: parses the
    template at once, so a malformed template raises here. *)
Definition HumanMessagePromptTemplate_from_template (tpl : str)
  : result PromptTemplate :=
  vars <- get_template_variables tpl ;;
  Ok {| template := tpl; input_variables := vars |}.

Definition message_variables (m : MessageLike) : list str :=
  match m with
  | AMessage _ => []
  | ATemplate p => input_variables p
  end.

Definition ChatPromptTemplate_from_messages (msgs : list MessageLike)
  : ChatPromptTemplate :=
  {| messages := msgs;
     chat_input_variables :=
       nodup str_eq_dec (flat_map message_variables msgs) |}.

(** [Formatter.vformat] on the parsed chunks: the literal text, then the
    value of the field. *)
Fixpoint vformat (chunks : list chunk) (kwargs : dict str) : result str :=
  match chunks with
  | [] => Ok []
  | (text, fld) :: rest =>
      piece <-
        match fld with
        | None => Ok []
        | Some f =>
            if is_placeholder f
            then dict_getitem kwargs (field_name f)
            else format_other_field kwargs f
        end ;;
      tail <- vformat rest kwargs ;;
      Ok (text ++ piece ++ tail)
  end.

(** [PromptTemplate.format] on the keyword arguments. *)
Definition PromptTemplate_format (p : PromptTemplate) (kwargs : dict str)
  : result str :=
  chunks <- formatter_parse (template p) ;;
  vformat chunks kwargs.

Fixpoint format_messages (msgs : list MessageLike) (kwargs : dict str)
  : result (list BaseMessage) :=
  match msgs with
  | [] => Ok []
  | AMessage m :: rest =>
      tail <- format_messages rest kwargs ;;
      Ok (m :: tail)
  | ATemplate p :: rest =>
      text <- PromptTemplate_format p kwargs ;;
      tail <- format_messages rest kwargs ;;
      Ok (HumanMessage text :: tail)
  end.

(** [ChatPromptTemplate.invoke(input)]: every input variable must have
    an entry; the input is then passed on as keyword arguments, which
    Python refuses when one of them is named [self] as the receiver of the
    method is; then the messages are formatted. *)
Definition ChatPromptTemplate_invoke (p : ChatPromptTemplate)
    (input : dict str) : result (list BaseMessage) :=
  let missing :=
    filter (fun v => negb (str_in v (dict_keys input)))
           (chat_input_variables p) in
  match missing with
  | [] =>
      if str_in (lit "self") (dict_keys input)
      then Raise (TypeError (lit "got multiple values for argument 'self'"))
      else format_messages (messages p) input
  | _ :: _ => Raise (KeyError missing)
  end.

(** *** The client object *)

Record AzureOpenAIClient : Type := {
  secrets : dict value;
  credential : Credential;
  llm : LLM
}.

Definition required_keys : list str :=
  [ lit "azure_tenant_id";
    lit "azure_client_id";
    lit "azure_client_secret";
    lit "azure_endpoint" ].

Definition _validate_secrets (secrets : dict value) : result unit :=
  let missing_keys :=
    filter (fun key => negb (truth (dict_get secrets key))) required_keys in
  match missing_keys with
  | _ :: _ =>
      Raise
        (ValueError
           (lit "Missing required secrets: " ++ repr_list missing_keys))
  | [] => Ok tt
  end.

Definition _setup_azure_credentials (secrets : dict value)
  : result Credential :=
  tenant_id <- dict_getitem secrets (lit "azure_tenant_id") ;;
  client_id <- dict_getitem secrets (lit "azure_client_id") ;;
  client_secret <- dict_getitem secrets (lit "azure_client_secret") ;;
  ClientSecretCredential tenant_id client_id client_secret.

(** The keyword arguments the constructor passes to [AzureChatOpenAI].
    The temperature is the float that the literal [0.1] denotes in
    Python, the binary64 number nearest to one tenth. *)
Definition langchain_kwargs (secrets : dict value) (endpoint : value)
    (credential : Credential) : LLMArgs Credential :=
  {| azure_endpoint := endpoint;
     azure_deployment :=
       dict_get_default secrets (lit "azure_deployment_name")
                        (PyStr (lit "gpt-4"));
     api_version :=
       dict_get_default secrets (lit "azure_api_version")
                        (PyStr (lit "2024-02-15-preview"));
     azure_ad_token_provider :=
       {| provider_credential := credential;
          provider_scope :=
            lit "https://cognitiveservices.azure.com/.default" |};
     temperature := 0x1.999999999999ap-4;
     max_tokens := 4000 |}.

Definition _initialize_langchain_client (secrets : dict value)
    (credential : Credential) : result LLM :=
  endpoint <- dict_getitem secrets (lit "azure_endpoint") ;;
  AzureChatOpenAI (langchain_kwargs secrets endpoint credential).

Definition __init__ (secrets : dict value) : result AzureOpenAIClient :=
  _ <- _validate_secrets secrets ;;
  credential <- _setup_azure_credentials secrets ;;
  llm <- _initialize_langchain_client secrets credential ;;
  Ok {| secrets := secrets; credential := credential; llm := llm |}.

Definition get_langchain (self : AzureOpenAIClient) : LLM := llm self.

(** *** Methods

    A method runs on the object and the world and leaves both; an
    exception ends it with the state reached so far. *)

Definition state : Type := (AzureOpenAIClient * World)%type.

Definition method (A : Type) : Type := state -> result A * state.

Definition mret {A : Type} (a : A) : method A := fun st => (Ok a, st).

Definition mbind {A B : Type} (m : method A) (k : A -> method B)
  : method B :=
  fun st =>
    match m st with
    | (Ok a, st') => k a st'
    | (Raise e, st') => (Raise e, st')
    end.

Definition lift {A : Type} (r : result A) : method A := fun st => (r, st).

(** Reading [self.llm]. *)
Definition self_llm : method LLM := fun st => (Ok (llm (fst st)), st).

(** The completion request: the one effect on the world. *)
Definition invoke_llm (model : LLM) (msgs : list BaseMessage)
  : method str :=
  fun st =>
    let (response, w) := llm_invoke model msgs (snd st) in
    (response, (fst st, w)).

Notation "x <~ c ;; k" := (mbind c (fun x => k))
  (at level 61, c at next level, right associativity).

(** [(prompt | llm).invoke(input)]. *)
Definition chain_invoke (prompt : ChatPromptTemplate) (model : LLM)
    (input : dict str) : method str :=
  prompt_value <~ lift (ChatPromptTemplate_invoke prompt input) ;;
  invoke_llm model prompt_value.

Definition chat (message : str) (system_message : option str)
  : method str :=
  let messages := [] in
  let messages :=
    match system_message with
    | Some (c :: s) => messages ++ [AMessage (SystemMessage (c :: s))]
    | Some [] | None => messages
    end in
  human <~ lift (HumanMessagePromptTemplate_from_template message) ;;
  let messages := messages ++ [ATemplate human] in
  let prompt := ChatPromptTemplate_from_messages messages in
  model <~ self_llm ;;
  response <~ chain_invoke prompt model [] ;;
  mret (strip response).

Definition chat_with_template (tpl : str) (variables : dict str)
    (system_message : option str) : method str :=
  let messages := [] in
  let messages :=
    match system_message with
    | Some (c :: s) => messages ++ [AMessage (SystemMessage (c :: s))]
    | Some [] | None => messages
    end in
  human <~ lift (HumanMessagePromptTemplate_from_template tpl) ;;
  let messages := messages ++ [ATemplate human] in
  let prompt := ChatPromptTemplate_from_messages messages in
  model <~ self_llm ;;
  response <~ chain_invoke prompt model variables ;;
  mret (strip response).

(** *** Constructors of the module *)

Definition os_getenv (environ : dict str) (name : str) : value :=
  match dict_lookup environ name with
  | Some s => PyStr s
  | None => PyNone
  end.

Definition os_getenv_default (environ : dict str) (name default : str)
  : value :=
  match dict_lookup environ name with
  | Some s => PyStr s
  | None => PyStr default
  end.


Definition create_client_from_dict (secrets : dict value)
  : result AzureOpenAIClient :=
  __init__ secrets.

End Client.

(** ** What a call sends, and vocabulary for the statements *)

Section Requests.

Context {L : Library}.

(** The message sequence a call builds from its arguments: the system
    instruction, if any, then the formatted user message. *)
Definition prompt_messages (tpl : str) (variables : dict str)
    (system_message : option str) : result (list BaseMessage) :=
  let messages :=
    match system_message with
    | Some (c :: s) => [AMessage (SystemMessage (c :: s))]
    | Some [] | None => []
    end in
  human <- HumanMessagePromptTemplate_from_template tpl ;;
  ChatPromptTemplate_invoke
    (ChatPromptTemplate_from_messages (messages ++ [ATemplate human]))
    variables.

(** Sending a message sequence through [self.llm] and stripping the
    answer. *)
Definition send (msgs : list BaseMessage) : method str :=
  fun st =>
    let (response, w) := llm_invoke (llm (fst st)) msgs (snd st) in
    (body <- response ;; Ok (strip body), (fst st, w)).

(** The two public calls of a client. *)
Inductive call : Type :=
| Chat (message : str) (system_message : option str)
| ChatWithTemplate (tpl : str) (variables : dict str)
    (system_message : option str).

Definition run (k : call) : method str :=
  match k with
  | Chat message system_message => chat message system_message
  | ChatWithTemplate tpl variables system_message =>
      chat_with_template tpl variables system_message
  end.

(** The message sequence of a call. *)
Definition call_messages (k : call) : result (list BaseMessage) :=
  match k with
  | Chat message system_message => prompt_messages message [] system_message
  | ChatWithTemplate tpl variables system_message =>
      prompt_messages tpl variables system_message
  end.

(** The system entry of a message sequence: present for a non-empty
    instruction only. *)
Definition system_messages (system_message : option str) : list BaseMessage :=
  match system_message with
  | Some (c :: s) => [SystemMessage (c :: s)]
  | Some [] | None => []
  end.

(** The errors of a template: a malformed or refused template, a variable
    without entry. *)
Definition template_error (e : exn) : Prop :=
  match e with
  | ValueError _ | KeyError _ => True
  | TypeError _ | LibraryError _ => False
  end.

(** A key is supplied when the dictionary maps it to a non-empty string;
    it is omitted when it is absent, [None] or the empty string. *)
Definition supplied (secrets : dict value) (key : str) : Prop :=
  exists c s, dict_lookup secrets key = Some (PyStr (c :: s)).

Definition omitted (secrets : dict value) (key : str) : Prop :=
  dict_lookup secrets key = None
  \/ dict_lookup secrets key = Some PyNone
  \/ dict_lookup secrets key = Some (PyStr []).


End Requests.


(** ** Templates as literal text and placeholders *)

(** A template seen from its author's side: stretches of literal text and
    [{name}] placeholders. *)
Inductive piece : Type :=
| Text (s : str)
| Hole (name : str).

Definition is_brace (c : N) : bool := N.eqb c LBRACE || N.eqb c RBRACE.

(** Literal text as it is written in a template: each brace doubled. *)
Fixpoint escape (s : str) : str :=
  match s with
  | [] => []
  | c :: s' => if is_brace c then c :: c :: escape s' else c :: escape s'
  end.

(** The template string of a sequence of pieces. *)
Fixpoint render (ps : list piece) : str :=
  match ps with
  | [] => []
  | Text s :: rest => escape s ++ render rest
  | Hole name :: rest => LBRACE :: name ++ RBRACE :: render rest
  end.

(** The text a template stands for: literal text as it is, each
    placeholder replaced by its value. *)
Fixpoint fill (ps : list piece) (variables : dict str) : str :=
  match ps with
  | [] => []
  | Text s :: rest => s ++ fill rest variables
  | Hole name :: rest =>
      match dict_lookup variables name with
      | Some v => v ++ fill rest variables
      | None => fill rest variables
      end
  end.

Fixpoint holes (ps : list piece) : list str :=
  match ps with
  | [] => []
  | Text _ :: rest => holes rest
  | Hole name :: rest => name :: holes rest
  end.

(** The chunks the parser yields on [escape s] followed by more input:
    one chunk of literal text up to and including each brace. *)
Fixpoint text_chunks (s : str) (text : str) (k : str -> list chunk)
  : list chunk :=
  match s with
  | [] => k text
  | c :: s' =>
      if is_brace c
      then (text ++ [c], None) :: text_chunks s' [] k
      else text_chunks s' (text ++ [c]) k
  end.

(** The chunks the parser yields on [render ps], entered with literal
    text [text] pending. *)
Fixpoint piece_chunks (ps : list piece) (text : str) : list chunk :=
  match ps with
  | [] => match text with [] => [] | _ :: _ => [(text, None)] end
  | Text s :: rest => text_chunks s text (piece_chunks rest)
  | Hole name :: rest =>
      (text, mk_field name [] None) :: piece_chunks rest []
  end.



(** ** The environment, and calls in sequence *)

(** The dictionary [create_client_from_env] builds from the environment. *)
Definition env_secrets (environ : dict str) : dict value :=
  [ (lit "azure_tenant_id", os_getenv environ (lit "AZURE_TENANT_ID"));
    (lit "azure_client_id", os_getenv environ (lit "AZURE_CLIENT_ID"));
    (lit "azure_client_secret",
     os_getenv environ (lit "AZURE_CLIENT_SECRET"));
    (lit "azure_endpoint", os_getenv environ (lit "AZURE_ENDPOINT"));
    (lit "azure_deployment_name",
     os_getenv_default environ (lit "AZURE_DEPLOYMENT_NAME") (lit "gpt-4"));
    (lit "azure_api_version",
     os_getenv_default environ (lit "AZURE_API_VERSION")
                       (lit "2024-02-15-preview")) ].





Section Sequences.

Context {L : Library}.

(** Calls made one after the other on the same client, each in the world
    the one before left. *)
Fixpoint run_all (ks : list call) (st : state)
  : list (result str) * state :=
  match ks with
  | [] => ([], st)
  | k :: ks' =>
      let (r, st') := run k st in
      let (rs, st'') := run_all ks' st' in
      (r :: rs, st'')
  end.

(** The request a call makes: its message sequence, or none when the
    prompt cannot be built. *)
Definition own_request (k : call) : list (list BaseMessage) :=
  match call_messages k with
  | Ok msgs => [msgs]
  | Raise _ => []
  end.

End Sequences.

(** ** Sample runs

    Concrete dictionaries, a client and worlds of the scripted library, on
    which the statements below are run. *)
Module Sample.

#[local] Existing Instance Scripted.library.

(** The four required keys and nothing else. *)
Definition cfg : dict value :=
  [ (lit "azure_tenant_id", PyStr (lit "tenant"));
    (lit "azure_client_id", PyStr (lit "app"));
    (lit "azure_client_secret", PyStr (lit "secret"));
    (lit "azure_endpoint", PyStr (lit "https://example.openai.azure.com")) ].

(** The same entries in another order. *)
Definition cfg_reordered : dict value :=
  [ (lit "azure_endpoint", PyStr (lit "https://example.openai.azure.com"));
    (lit "azure_client_secret", PyStr (lit "secret"));
    (lit "azure_tenant_id", PyStr (lit "tenant"));
    (lit "azure_client_id", PyStr (lit "app")) ].

(** The endpoint first and empty, the tenant id absent, an entry that is
    not a setting of the client. *)
Definition cfg_partial : dict value :=
  [ (lit "azure_endpoint", PyStr []);
    (lit "temperature", PyStr (lit "0.9"));
    (lit "azure_client_secret", PyStr (lit "secret"));
    (lit "azure_client_id", PyStr (lit "app")) ].


(** An environment with the four required variables only. *)
Definition environ : dict str :=
  [ (lit "AZURE_TENANT_ID", lit "tenant");
    (lit "AZURE_CLIENT_ID", lit "app");
    (lit "AZURE_CLIENT_SECRET", lit "secret");
    (lit "AZURE_ENDPOINT", lit "https://example.openai.azure.com") ].

Definition cred : Credential :=
  (PyStr (lit "tenant"), PyStr (lit "app"), PyStr (lit "secret")).

Definition client : AzureOpenAIClient :=
  {| secrets := cfg;
     credential := cred;
     llm :=
       langchain_kwargs cfg (PyStr (lit "https://example.openai.azure.com"))
                        cred |}.

(** The body ["  Hi there  \n"]. *)
Definition padded_body : str := lit "  Hi there  " ++ [10%N].

(** The service answers the next request with the padded body. *)
Definition answering : World :=
  {| Scripted.sent := []; Scripted.replies := [Ok padded_body] |}.

(** The first request fails in transport, the second is answered. *)
Definition flaky : World :=
  {| Scripted.sent := [];
     Scripted.replies :=
       [Raise (LibraryError (lit "timed out")); Ok padded_body] |}.

Definition hello : list piece := [Text (lit "Hello "); Hole (lit "name")].

Definition ada : dict str := [(lit "name", lit "Ada")].



(** The deployment name present and [None]. *)
Definition cfg_no_deployment : dict value :=
  cfg ++ [(lit "azure_deployment_name", PyNone)].

Definition client_no_deployment : AzureOpenAIClient :=
  {| secrets := cfg_no_deployment;
     credential := cred;
     llm :=
       langchain_kwargs cfg_no_deployment
         (PyStr (lit "https://example.openai.azure.com")) cred |}.

(** The service refuses the token. *)
Definition refusing : World :=
  {| Scripted.sent := [];
     Scripted.replies := [Raise (LibraryError (lit "unauthorized"))] |}.

(** The service answers with blanks. *)
Definition blank : World :=
  {| Scripted.sent := [];
     Scripted.replies := [Ok (lit "   ")] |}.

(** The entry of the placeholder and one the template does not use. *)
Definition ada_more : dict str :=
  [(lit "title", lit "Countess"); (lit "name", lit "Ada")].


End Sample.

(** ** Strings and dictionaries *)

Lemma str_eqb_eq (a b : str) : str_eqb a b = true <-> a = b.
Proof.
  revert b; induction a as [|x a IH]; intros [|y b]; simpl;
    try (split; [discriminate | discriminate]); try tauto.
  rewrite andb_true_iff, N.eqb_eq, IH.
  split; [intros [-> ->]; reflexivity | intros H; inversion H; auto].
Qed.

Lemma str_eqb_refl (a : str) : str_eqb a a = true.
Proof. apply str_eqb_eq; reflexivity. Qed.

Lemma str_eqb_neq (a b : str) : str_eqb a b = false <-> a <> b.
Proof.
  rewrite <- str_eqb_eq. destruct (str_eqb a b); split; congruence.
Qed.

Lemma str_in_In (x : str) (l : list str) : str_in x l = true <-> In x l.
Proof.
  unfold str_in. rewrite existsb_exists. split.
  - intros (y & Hy & E). apply str_eqb_eq in E. subst; assumption.
  - intros H. exists x. split; [assumption | apply str_eqb_refl].
Qed.

Lemma dict_lookup_keys {V : Type} (d : dict V) (key : str) :
  In key (dict_keys d) <-> exists v, dict_lookup d key = Some v.
Proof.
  induction d as [|[k v] d IH]; simpl.
  - split; [tauto | intros [v H]; discriminate].
  - destruct (str_eqb k key) eqn:E.
    + apply str_eqb_eq in E. split; eauto.
    + apply str_eqb_neq in E. rewrite <- IH. tauto.
Qed.


Lemma truth_supplied (secrets : dict value) (key : str) :
  truth (dict_get secrets key) = true <-> supplied secrets key.
Proof.
  unfold supplied, dict_get.
  destruct (dict_lookup secrets key) as [[|[|c s]]|]; simpl; split;
    try discriminate; eauto;
    intros (c' & s' & H); discriminate.
Qed.

Lemma truth_omitted (secrets : dict value) (key : str) :
  truth (dict_get secrets key) = false <-> omitted secrets key.
Proof.
  unfold omitted, dict_get.
  destruct (dict_lookup secrets key) as [[|[|c s]]|]; simpl; split;
    try discriminate; auto;
    intros [H|[H|H]]; discriminate.
Qed.

Lemma supplied_or_omitted (secrets : dict value) (key : str) :
  supplied secrets key \/ omitted secrets key.
Proof.
  rewrite <- truth_supplied, <- truth_omitted.
  destruct (truth (dict_get secrets key)); auto.
Qed.

Lemma supplied_not_omitted (secrets : dict value) (key : str) :
  supplied secrets key -> ~ omitted secrets key.
Proof.
  rewrite <- truth_supplied, <- truth_omitted. congruence.
Qed.

Lemma filter_nil_iff {A : Type} (f : A -> bool) (l : list A) :
  filter f l = [] <-> Forall (fun x => f x = false) l.
Proof.
  induction l as [|x l IH]; simpl.
  - split; auto.
  - destruct (f x) eqn:E; split; intros H.
    + discriminate.
    + inversion H; congruence.
    + constructor; [assumption | apply IH; assumption].
    + inversion H; subst. apply IH; assumption.
Qed.



(** ** Construction *)

Section Construction.

Context {L : Library}.

Lemma required_keys_identifiers :
  Forall (fun key => is_identifier key = true) required_keys.
Proof. repeat constructor. Qed.

Lemma required_keys_NoDup : NoDup required_keys.
Proof.
  unfold required_keys.
  repeat (constructor; [simpl; intros H; repeat destruct H as [H|H]; try discriminate; assumption|]).
  constructor.
Qed.

Lemma dict_getitem_supplied (secrets : dict value) (key : str) :
  supplied secrets key -> dict_getitem secrets key = Ok (dict_get secrets key).
Proof.
  intros (c & s & H). unfold dict_getitem, dict_get. rewrite H. reflexivity.
Qed.

Lemma validate_supplied (secrets : dict value) :
  Forall (supplied secrets) required_keys ->
  _validate_secrets secrets = Ok tt.
Proof.
  intros H. unfold _validate_secrets.
  replace (filter _ required_keys) with (@nil str); [reflexivity|].
  symmetry. apply filter_nil_iff.
  eapply Forall_impl; [|exact H]. intros key Hk. simpl in *.
  apply truth_supplied in Hk. rewrite Hk. reflexivity.
Qed.

Lemma validate_omitted (secrets : dict value) :
  Exists (omitted secrets) required_keys ->
  exists missing,
    missing <> []
    /\ missing =
       filter (fun key => negb (truth (dict_get secrets key))) required_keys
    /\ _validate_secrets secrets =
       Raise
         (ValueError (lit "Missing required secrets: " ++ repr_list missing)).
Proof.
  intros H. unfold _validate_secrets.
  set (missing := filter _ required_keys).
  exists missing. destruct missing as [|k ks] eqn:E.
  - exfalso. apply Exists_exists in H. destruct H as (key & Hin & Hk).
    apply filter_nil_iff in E. rewrite Forall_forall in E.
    specialize (E key Hin). apply truth_omitted in Hk.
    rewrite Hk in E. discriminate.
  - repeat split; congruence.
Qed.

Lemma init_validation_error (secrets : dict value) (e : exn) :
  _validate_secrets secrets = Raise e -> __init__ secrets = Raise e.
Proof. intros H. unfold __init__. rewrite H. reflexivity. Qed.




Lemma validate_Ok_supplied (cfg : dict value) :
  _validate_secrets cfg = Ok tt -> Forall (supplied cfg) required_keys.
Proof.
  intros H. apply Forall_forall. intros key Hin.
  destruct (supplied_or_omitted cfg key) as [Hs|Ho]; [assumption|].
  destruct (validate_omitted cfg) as (missing & _ & _ & Hv).
  - apply Exists_exists. exists key. split; assumption.
  - rewrite Hv in H. discriminate.
Qed.

(** What a successful construction has done. *)
Lemma init_Ok_inv (cfg : dict value) (client : AzureOpenAIClient) :
  __init__ cfg = Ok client ->
  secrets client = cfg
  /\ Forall (supplied cfg) required_keys
  /\ ClientSecretCredential
       (dict_get cfg (lit "azure_tenant_id"))
       (dict_get cfg (lit "azure_client_id"))
       (dict_get cfg (lit "azure_client_secret")) = Ok (credential client)
  /\ AzureChatOpenAI
       (langchain_kwargs cfg (dict_get cfg (lit "azure_endpoint"))
                         (credential client)) = Ok (llm client).
Proof.
  unfold __init__. intros H.
  destruct (_validate_secrets cfg) as [[]|e] eqn:Hv; [|discriminate].
  pose proof (validate_Ok_supplied _ Hv) as Hall.
  pose proof Hall as Hall'. unfold required_keys in Hall'.
  inversion Hall' as [|? ? H1 Hall1]; subst.
  inversion Hall1 as [|? ? H2 Hall2]; subst.
  inversion Hall2 as [|? ? H3 Hall3]; subst.
  inversion Hall3 as [|? ? H4 _]; subst.
  simpl in H.
  unfold _setup_azure_credentials, _initialize_langchain_client in H.
  rewrite !dict_getitem_supplied in H by assumption. simpl in H.
  destruct (ClientSecretCredential _ _ _) as [cred|e] eqn:Hc;
    [|discriminate].
  simpl in H.
  destruct (AzureChatOpenAI _) as [model|e] eqn:Hm; [|discriminate].
  simpl in H. inversion H; subst; simpl. auto.
Qed.


End Construction.

(** ** Stripping *)

Lemma lstrip_spec (s : str) :
  exists l,
    s = l ++ lstrip s
    /\ Forall (fun c => isspace c = true) l
    /\ (forall c rest, lstrip s = c :: rest -> isspace c = false).
Proof.
  induction s as [|c s (l & E & Hl & Hh)]; simpl.
  - exists []. repeat split; [constructor | discriminate].
  - destruct (isspace c) eqn:Ec.
    + exists (c :: l). simpl. rewrite <- E. repeat split; auto.
    + exists []. repeat split; [constructor|].
      intros c' rest H. inversion H; subst; assumption.
Qed.

Lemma rstrip_spec (s : str) :
  exists r,
    s = rstrip s ++ r
    /\ Forall (fun c => isspace c = true) r
    /\ (forall c front, rstrip s = front ++ [c] -> isspace c = false).
Proof.
  unfold rstrip. destruct (lstrip_spec (rev s)) as (l & E & Hl & Hh).
  exists (rev l). repeat split.
  - rewrite <- rev_app_distr, <- E, rev_involutive. reflexivity.
  - apply Forall_rev; assumption.
  - intros c front H. apply (f_equal (@rev N)) in H.
    rewrite rev_involutive, rev_app_distr in H. simpl in H.
    eapply Hh; exact H.
Qed.

(** [strip] removes a run of whitespace at each end and leaves a string
    that neither starts nor ends with whitespace. *)
Lemma strip_spec (s : str) :
  exists l r,
    s = l ++ strip s ++ r
    /\ Forall (fun c => isspace c = true) l
    /\ Forall (fun c => isspace c = true) r
    /\ (forall c rest, strip s = c :: rest -> isspace c = false)
    /\ (forall c front, strip s = front ++ [c] -> isspace c = false).
Proof.
  unfold strip.
  destruct (lstrip_spec s) as (l & El & Hl & Hhead).
  destruct (rstrip_spec (lstrip s)) as (r & Er & Hr & Hlast).
  exists l, r. repeat split; auto.
  - rewrite <- Er. exact El.
  - intros c rest H. rewrite H in Er. simpl in Er.
    eapply Hhead. exact Er.
Qed.

(** ** Parsing a rendered template *)

Lemma identifier_char_plain (c : N) :
  isalpha_ascii c || isdigit_ascii c = true ->
  N.eqb c LBRACE = false /\ N.eqb c RBRACE = false
  /\ N.eqb c LBRACKET = false /\ N.eqb c COLON = false
  /\ N.eqb c BANG = false.
Proof.
  unfold isalpha_ascii, isdigit_ascii, LBRACE, RBRACE, LBRACKET, COLON, BANG.
  intros H.
  repeat split; apply N.eqb_neq; intros ->; vm_compute in H; discriminate.
Qed.

Lemma scan_name (n nm text rest : str) :
  forallb (fun d => isalpha_ascii d || isdigit_ascii d) n = true ->
  scan (n ++ RBRACE :: rest) (InName text nm)
  = emit (text, mk_field (nm ++ n) [] None) (scan rest (InText [])).
Proof.
  revert nm. induction n as [|c n IH]; intros nm H; simpl in *.
  - rewrite app_nil_r. reflexivity.
  - apply andb_true_iff in H. destruct H as [Hc Hn].
    destruct (identifier_char_plain c Hc) as (E1 & E2 & E3 & E4 & E5).
    rewrite E1, E2, E3, E4, E5, IH by assumption.
    rewrite <- app_assoc. reflexivity.
Qed.

Lemma scan_hole (name text rest : str) :
  is_identifier name = true ->
  scan (LBRACE :: name ++ RBRACE :: rest) (InText text)
  = emit (text, mk_field name [] None) (scan rest (InText [])).
Proof.
  destruct name as [|c n]; [discriminate|]. intros H.
  unfold is_identifier in H. apply andb_true_iff in H. destruct H as [Hc Hn].
  assert (Hc' : isalpha_ascii c || isdigit_ascii c = true)
    by (rewrite Hc; reflexivity).
  destruct (identifier_char_plain c Hc') as (E1 & E2 & E3 & E4 & E5).
  change (scan (LBRACE :: (c :: n) ++ RBRACE :: rest) (InText text))
    with (if N.eqb c LBRACE
          then emit (text ++ [LBRACE], None)
                    (scan (n ++ RBRACE :: rest) (InText []))
          else scan ((c :: n) ++ RBRACE :: rest) (InName text [])).
  rewrite E1. apply (scan_name (c :: n) [] text rest).
  simpl. rewrite Hc'. exact Hn.
Qed.

Lemma scan_escape (s text rest : str) (k : str -> list chunk) :
  (forall t, scan rest (InText t) = Ok (k t)) ->
  scan (escape s ++ rest) (InText text) = Ok (text_chunks s text k).
Proof.
  intros Hk. revert text. induction s as [|c s IH]; intros text.
  - apply Hk.
  - simpl escape. simpl text_chunks. unfold is_brace.
    destruct (N.eqb c LBRACE) eqn:E1.
    + apply N.eqb_eq in E1. subst c. simpl. rewrite IH. reflexivity.
    + destruct (N.eqb c RBRACE) eqn:E2; simpl.
      * rewrite E1, E2. apply N.eqb_eq in E2. subst c.
        simpl. rewrite IH. reflexivity.
      * rewrite E1, E2. apply IH.
Qed.

Lemma parse_render (ps : list piece) (text : str) :
  Forall (fun name => is_identifier name = true) (holes ps) ->
  scan (render ps) (InText text) = Ok (piece_chunks ps text).
Proof.
  revert text. induction ps as [|[s|name] ps IH]; intros text H.
  - destruct text; reflexivity.
  - simpl. apply scan_escape. intros t. apply IH. exact H.
  - simpl in H. inversion H; subst.
    simpl render. rewrite scan_hole by assumption.
    rewrite IH by assumption. reflexivity.
Qed.

Lemma chunk_fields_text_chunks (s text : str) (k : str -> list chunk)
    (fs : list str) :
  (forall t, chunk_fields (k t) = fs) ->
  chunk_fields (text_chunks s text k) = fs.
Proof.
  intros Hk. revert text. induction s as [|c s IH]; intros text; simpl.
  - apply Hk.
  - destruct (is_brace c); simpl; apply IH.
Qed.

Lemma chunk_fields_piece_chunks (ps : list piece) (text : str) :
  chunk_fields (piece_chunks ps text) = holes ps.
Proof.
  revert text. induction ps as [|[s|name] ps IH]; intros text; simpl.
  - destruct text; reflexivity.
  - apply chunk_fields_text_chunks. exact IH.
  - rewrite IH. reflexivity.
Qed.

(** ** The two calls *)

Section Calls.

Context {L : Library}.

Lemma vformat_text_chunks (s text out : str) (k : str -> list chunk)
    (variables : dict str) :
  (forall t, vformat (k t) variables = Ok (t ++ out)) ->
  vformat (text_chunks s text k) variables = Ok (text ++ s ++ out).
Proof.
  intros Hk. revert text. induction s as [|c s IH]; intros text; simpl.
  - apply Hk.
  - destruct (is_brace c); simpl.
    + rewrite IH. simpl. rewrite <- app_assoc. reflexivity.
    + rewrite IH, <- app_assoc. reflexivity.
Qed.

Lemma vformat_piece_chunks (ps : list piece) (text : str)
    (variables : dict str) :
  Forall (fun name => is_identifier name = true) (holes ps) ->
  Forall (fun name => dict_lookup variables name <> None) (holes ps) ->
  vformat (piece_chunks ps text) variables = Ok (text ++ fill ps variables).
Proof.
  revert text. induction ps as [|[s|name] ps IH]; intros text Hid Hin.
  - destruct text; simpl; rewrite ?app_nil_r; reflexivity.
  - simpl. apply vformat_text_chunks. intros t. apply IH; assumption.
  - simpl in Hid, Hin. inversion Hid; subst. inversion Hin; subst.
    simpl. unfold is_placeholder; simpl.
    replace (is_identifier name) with true by (symmetry; assumption).
    simpl. unfold dict_getitem.
    destruct (dict_lookup variables name) as [v|]; [|congruence].
    simpl. rewrite IH by assumption. reflexivity.
Qed.

(** The variables of a prompt are those of its user template. *)
Lemma chat_input_variables_In (system_message : option str)
    (p : PromptTemplate) (x : str) :
  In x (chat_input_variables
          (ChatPromptTemplate_from_messages
             (match system_message with
              | Some (c :: s) => [AMessage (SystemMessage (c :: s))]
              | Some [] | None => []
              end ++ [ATemplate p])))
  <-> In x (input_variables p).
Proof.
  unfold ChatPromptTemplate_from_messages; simpl.
  rewrite nodup_In.
  destruct system_message as [[|c s]|]; simpl; rewrite app_nil_r; reflexivity.
Qed.

Lemma format_messages_prompt (system_message : option str)
    (p : PromptTemplate) (variables : dict str) :
  format_messages
    (match system_message with
     | Some (c :: s) => [AMessage (SystemMessage (c :: s))]
     | Some [] | None => []
     end ++ [ATemplate p]) variables
  = (text <- PromptTemplate_format p variables ;;
     Ok (system_messages system_message ++ [HumanMessage text])).
Proof.
  destruct system_message as [[|c s]|]; simpl;
    destruct (PromptTemplate_format p variables); reflexivity.
Qed.

Lemma identifiers_not_refused (l : list str) :
  Forall (fun name => is_identifier name = true) l ->
  existsb (fun v => negb (is_identifier v) && refuses_name v) l = false.
Proof.
  induction 1 as [|x l Hx _ IH]; simpl; [reflexivity|].
  rewrite Hx, IH. reflexivity.
Qed.

Lemma from_template_identifiers (tpl : str) (chunks : list chunk) :
  formatter_parse tpl = Ok chunks ->
  Forall (fun name => is_identifier name = true) (chunk_fields chunks) ->
  HumanMessagePromptTemplate_from_template tpl
  = Ok {| template := tpl;
          input_variables := nodup str_eq_dec (chunk_fields chunks) |}.
Proof.
  intros Hp Hid.
  unfold HumanMessagePromptTemplate_from_template, get_template_variables.
  rewrite Hp. simpl bind. rewrite identifiers_not_refused; [reflexivity|].
  apply Forall_forall. intros x Hx. apply nodup_In in Hx.
  rewrite Forall_forall in Hid. auto.
Qed.

Lemma key_absent (variables : dict str) (x : str) :
  dict_lookup variables x = None -> str_in x (dict_keys variables) = false.
Proof.
  intros H. destruct (str_in x (dict_keys variables)) eqn:E; [|reflexivity].
  apply str_in_In, dict_lookup_keys in E. destruct E as [v E]. congruence.
Qed.

Lemma key_present (variables : dict str) (x : str) :
  dict_lookup variables x <> None -> str_in x (dict_keys variables) = true.
Proof.
  intros H. apply str_in_In, dict_lookup_keys.
  destruct (dict_lookup variables x) as [v|]; [eauto | congruence].
Qed.

(** A template whose variables all have an entry is formatted. *)
Lemma prompt_messages_supplied (tpl : str) (variables : dict str)
    (system_message : option str) (chunks : list chunk) :
  formatter_parse tpl = Ok chunks ->
  Forall (fun name => is_identifier name = true) (chunk_fields chunks) ->
  Forall (fun name => dict_lookup variables name <> None)
         (chunk_fields chunks) ->
  dict_lookup variables (lit "self") = None ->
  prompt_messages tpl variables system_message
  = (text <- vformat chunks variables ;;
     Ok (system_messages system_message ++ [HumanMessage text])).
Proof.
  intros Hp Hid Hall Hself. unfold prompt_messages.
  rewrite (from_template_identifiers tpl chunks Hp Hid).
  simpl bind. unfold ChatPromptTemplate_invoke.
  set (p := {| template := tpl;
               input_variables := nodup str_eq_dec (chunk_fields chunks) |}).
  match goal with
  | |- context [filter ?f ?l] =>
      assert (E : filter f l = []); [|rewrite E]
  end.
  - apply filter_nil_iff. apply Forall_forall. intros x Hx.
    apply chat_input_variables_In in Hx. simpl in Hx.
    apply nodup_In in Hx. rewrite Forall_forall in Hall.
    rewrite (key_present variables x (Hall x Hx)). reflexivity.
  - rewrite (key_absent variables _ Hself).
    simpl messages. rewrite format_messages_prompt.
    unfold PromptTemplate_format. simpl template. rewrite Hp. reflexivity.
Qed.




Lemma prompt_messages_malformed (tpl : str) (variables : dict str)
    (system_message : option str) (e : exn) :
  formatter_parse tpl = Raise e ->
  prompt_messages tpl variables system_message = Raise e.
Proof.
  intros Hp. unfold prompt_messages.
  unfold HumanMessagePromptTemplate_from_template, get_template_variables.
  rewrite Hp. reflexivity.
Qed.

(** A call formats its prompt, then sends it; when the prompt cannot be
    formatted nothing is sent. *)
Lemma chat_with_template_sends (tpl : str) (variables : dict str)
    (system_message : option str) (st : state) :
  chat_with_template tpl variables system_message st
  = match prompt_messages tpl variables system_message with
    | Ok msgs => send msgs st
    | Raise e => (Raise e, st)
    end.
Proof.
  unfold chat_with_template, prompt_messages, mbind, lift, self_llm,
    chain_invoke, mbind, lift, invoke_llm, send, mret.
  destruct (HumanMessagePromptTemplate_from_template tpl) as [p|e];
    [|reflexivity].
  simpl.
  destruct (ChatPromptTemplate_invoke _ variables) as [msgs|e];
    [|reflexivity].
  destruct (llm_invoke (llm (fst st)) msgs (snd st)) as [[body|e] w];
    reflexivity.
Qed.

Lemma chat_is_template (message : str) (system_message : option str) :
  chat message system_message = chat_with_template message [] system_message.
Proof. reflexivity. Qed.

Lemma run_sends (k : call) (st : state) :
  run k st
  = match call_messages k with
    | Ok msgs => send msgs st
    | Raise e => (Raise e, st)
    end.
Proof.
  destruct k; simpl; [rewrite chat_is_template|];
    apply chat_with_template_sends.
Qed.

Lemma send_keeps_client (msgs : list BaseMessage) (st : state) :
  fst (snd (send msgs st)) = fst st.
Proof.
  unfold send. destruct (llm_invoke _ _ _). reflexivity.
Qed.

Lemma run_keeps_client (k : call) (st : state) :
  fst (snd (run k st)) = fst st.
Proof.
  rewrite run_sends. destruct (call_messages k);
    [apply send_keeps_client | reflexivity].
Qed.

Lemma prompt_messages_shape (tpl : str) (variables : dict str)
    (system_message : option str) (msgs : list BaseMessage) :
  prompt_messages tpl variables system_message = Ok msgs ->
  exists text, msgs = system_messages system_message ++ [HumanMessage text].
Proof.
  unfold prompt_messages.
  destruct (HumanMessagePromptTemplate_from_template tpl) as [p|e];
    [|discriminate].
  simpl bind. unfold ChatPromptTemplate_invoke.
  destruct (filter _ _); [|discriminate].
  destruct (str_in _ _); [discriminate|].
  simpl messages. rewrite format_messages_prompt.
  destruct (PromptTemplate_format p variables) as [text|e];
    [|discriminate].
  simpl. intros H. inversion H. eauto.
Qed.

Lemma response_is_stripped_aux (k : call) (st : state)
    (msgs : list BaseMessage) (body : str) (w' : World) :
  call_messages k = Ok msgs ->
  llm_invoke (llm (fst st)) msgs (snd st) = (Ok body, w') ->
  run k st = (Ok (strip body), (fst st, w')).
Proof.
  intros Hm Hi. rewrite run_sends, Hm. unfold send. rewrite Hi. reflexivity.
Qed.

(** C1: [chat] hands its message to the template parser, so a message
    with a brace is not sent as it is: one with a [{x}] in it raises
    before anything is sent, and doubled braces reach the service as
    single ones. *)
Theorem chat_treats_message_as_template (system_message : option str)
    (st : state) :
  chat (lit "What does {x} mean in Python?") system_message st
  = (Raise (KeyError [lit "x"]), st)
  /\ chat (lit "Write {{}}") system_message st
     = send (system_messages system_message ++ [HumanMessage (lit "Write {}")])
            st.
Proof.
  rewrite !chat_is_template, !chat_with_template_sends.
  split.
  - replace (prompt_messages (lit "What does {x} mean in Python?") []
                             system_message)
      with (@Raise (list BaseMessage) (KeyError [lit "x"])); [reflexivity|].
    destruct system_message as [[|c s]|]; vm_compute; reflexivity.
  - replace (prompt_messages (lit "Write {{}}") [] system_message)
      with (Ok (system_messages system_message
                ++ [HumanMessage (lit "Write {}")])); [reflexivity|].
    destruct system_message as [[|c s]|]; vm_compute; reflexivity.
Qed.



(** C5: when the service answers a call with a body, the call returns
    that body stripped: a run of whitespace is removed at each end and
    what is left neither starts nor ends with whitespace. *)
Theorem response_is_stripped (k : call) (st : state)
    (msgs : list BaseMessage) (body : str) (w' : World) :
  call_messages k = Ok msgs ->
  llm_invoke (llm (fst st)) msgs (snd st) = (Ok body, w') ->
  run k st = (Ok (strip body), (fst st, w'))
  /\ exists l r,
       body = l ++ strip body ++ r
       /\ Forall (fun c => isspace c = true) l
       /\ Forall (fun c => isspace c = true) r
       /\ (forall c rest, strip body = c :: rest -> isspace c = false)
       /\ (forall c front, strip body = front ++ [c] -> isspace c = false).
Proof.
  intros Hm Hi. split; [|apply strip_spec].
  apply response_is_stripped_aux with (msgs := msgs); assumption.
Qed.

(** C7: whatever the dictionary holds, the completion client is built
    with temperature 0.1 (the double nearest to it, as in Python) and at
    most 4000 output tokens, and no call replaces it. *)
Theorem sampling_parameters_fixed (cfg : dict value) :
  (forall endpoint cred,
     temperature (langchain_kwargs cfg endpoint cred) = 0x1.999999999999ap-4%float
     /\ max_tokens (langchain_kwargs cfg endpoint cred) = 4000%Z)
  /\ (forall client,
        __init__ cfg = Ok client ->
        AzureChatOpenAI
          (langchain_kwargs cfg (dict_get cfg (lit "azure_endpoint"))
                            (credential client)) = Ok (llm client)
        /\ forall k w,
             get_langchain (fst (snd (run k (client, w)))) = llm client).
Proof.
  split.
  - intros endpoint cred. split; reflexivity.
  - intros client H. apply init_Ok_inv in H. split; [tauto|].
    intros k w. rewrite run_keeps_client. reflexivity.
Qed.

(** C8: a call, whether it returns or raises, leaves the client object
    (dictionary of secrets, credential, completion client) as it was; a
    second call on the object therefore runs as on the original one, and
    returns the stripped body whenever the service answers it, whatever
    became of the first call. *)
Theorem calls_leave_client_unchanged (k1 k2 : call) (st : state) :
  fst (snd (run k1 st)) = fst st
  /\ run k2 (snd (run k1 st)) = run k2 (fst st, snd (snd (run k1 st)))
  /\ (forall msgs body w',
        call_messages k2 = Ok msgs ->
        llm_invoke (llm (fst st)) msgs (snd (snd (run k1 st))) = (Ok body, w') ->
        run k2 (snd (run k1 st)) = (Ok (strip body), (fst st, w'))).
Proof.
  pose proof (run_keeps_client k1 st) as Hk.
  destruct (run k1 st) as [r1 [c1 w1]]. simpl in *. subst c1.
  repeat split.
  intros msgs body w' Hm Hi.
  apply (response_is_stripped_aux k2 (fst st, w1) msgs body w' Hm Hi).
Qed.

(** C9: an empty system instruction is no system instruction: the two
    calls are the same functions with [""] as with [None], and the
    message sequence built has no system entry. *)
Theorem empty_system_message_is_absent (message tpl : str)
    (variables : dict str) :
  chat message (Some []) = chat message None
  /\ chat_with_template tpl variables (Some [])
     = chat_with_template tpl variables None
  /\ (forall msgs content,
        prompt_messages tpl variables (Some []) = Ok msgs ->
        ~ In (SystemMessage content) msgs).
Proof.
  split; [reflexivity|]. split; [reflexivity|].
  intros msgs content H Hin.
  apply prompt_messages_shape in H. destruct H as [text ->].
  simpl in Hin. destruct Hin as [Hin|[]]. discriminate.
Qed.

Lemma escape_without_braces (m : str) :
  forallb (fun c => negb (is_brace c)) m = true -> escape m = m.
Proof.
  induction m as [|c m IH]; simpl; [reflexivity|].
  intros H. apply andb_true_iff in H. destruct H as [Hc Hm].
  apply negb_true_iff in Hc. rewrite Hc, IH by assumption. reflexivity.
Qed.

(** A message without braces is sent as it is, after the system
    instruction when there is one. *)
Lemma chat_verbatim_without_braces (m : str) (system_message : option str)
    (st : state) :
  forallb (fun c => negb (is_brace c)) m = true ->
  chat m system_message st
  = send (system_messages system_message ++ [HumanMessage m]) st.
Proof.
  intros H. rewrite chat_is_template, chat_with_template_sends.
  rewrite (prompt_messages_supplied _ _ _ (piece_chunks [Text m] [])).
  - rewrite vformat_piece_chunks by constructor. simpl.
    rewrite app_nil_r. reflexivity.
  - rewrite <- (parse_render [Text m] []) by constructor.
    simpl. rewrite app_nil_r, escape_without_braces by assumption.
    reflexivity.
  - rewrite chunk_fields_piece_chunks. constructor.
  - rewrite chunk_fields_piece_chunks. constructor.
  - reflexivity.
Qed.

End Calls.

(** ** More on construction *)

Section MoreConstruction.

Context {L : Library}.









Lemma env_secrets_deployment (environ : dict str) :
  dict_lookup (env_secrets environ) (lit "azure_deployment_name")
  = Some (os_getenv_default environ (lit "AZURE_DEPLOYMENT_NAME")
                            (lit "gpt-4")).
Proof. reflexivity. Qed.

Lemma env_secrets_version (environ : dict str) :
  dict_lookup (env_secrets environ) (lit "azure_api_version")
  = Some (os_getenv_default environ (lit "AZURE_API_VERSION")
                            (lit "2024-02-15-preview")).
Proof. reflexivity. Qed.

(** X2: an optional key that has an entry is passed to the completion
    client as it is, [None] and the empty string included: only an
    absent key is defaulted.  From the environment, a variable set to the
    empty string gives the empty string. *)
Theorem optional_settings_passed_as_given (cfg : dict value)
    (client : AzureOpenAIClient) (v : value) :
  __init__ cfg = Ok client ->
  (dict_lookup cfg (lit "azure_deployment_name") = Some v ->
   exists args,
     AzureChatOpenAI args = Ok (llm client) /\ azure_deployment args = v)
  /\ (dict_lookup cfg (lit "azure_api_version") = Some v ->
      exists args,
        AzureChatOpenAI args = Ok (llm client) /\ api_version args = v)
  /\ (forall environ s endpoint cred,
        dict_lookup environ (lit "AZURE_DEPLOYMENT_NAME") = Some s ->
        azure_deployment (langchain_kwargs (env_secrets environ) endpoint cred)
        = PyStr s)
  /\ (forall environ s endpoint cred,
        dict_lookup environ (lit "AZURE_API_VERSION") = Some s ->
        api_version (langchain_kwargs (env_secrets environ) endpoint cred)
        = PyStr s).
Proof.
  intros H. apply init_Ok_inv in H. destruct H as (_ & _ & _ & Hm).
  split; [|split; [|split]].
  - intros Hv. eexists. split; [exact Hm|].
    unfold langchain_kwargs, dict_get_default; simpl. rewrite Hv. reflexivity.
  - intros Hv. eexists. split; [exact Hm|].
    unfold langchain_kwargs, dict_get_default; simpl. rewrite Hv. reflexivity.
  - intros environ s endpoint cred Hs.
    unfold langchain_kwargs. cbn [azure_deployment].
    unfold dict_get_default. rewrite env_secrets_deployment.
    unfold os_getenv_default. rewrite Hs. reflexivity.
  - intros environ s endpoint cred Hs.
    unfold langchain_kwargs. cbn [api_version].
    unfold dict_get_default. rewrite env_secrets_version.
    unfold os_getenv_default. rewrite Hs. reflexivity.
Qed.

(** X3: the construction raises either the configuration error of the
    validation, or, with the four keys supplied, the exception of the
    credential constructor, or, with a credential built, the exception of
    the completion client constructor, each as it was raised.  Reading the
    four keys never raises. *)
Theorem construction_errors (cfg : dict value) (e : exn) :
  __init__ cfg = Raise e ->
  (exists missing,
     missing <> []
     /\ e = ValueError (lit "Missing required secrets: " ++ repr_list missing))
  \/ (Forall (supplied cfg) required_keys
      /\ (ClientSecretCredential
            (dict_get cfg (lit "azure_tenant_id"))
            (dict_get cfg (lit "azure_client_id"))
            (dict_get cfg (lit "azure_client_secret")) = Raise e
          \/ exists cred,
               ClientSecretCredential
                 (dict_get cfg (lit "azure_tenant_id"))
                 (dict_get cfg (lit "azure_client_id"))
                 (dict_get cfg (lit "azure_client_secret")) = Ok cred
               /\ AzureChatOpenAI
                    (langchain_kwargs cfg
                       (dict_get cfg (lit "azure_endpoint")) cred)
                  = Raise e)).
Proof.
  intros H.
  destruct (Exists_dec (fun key => truth (dict_get cfg key) = false)
                       required_keys) as [Hex|Hnex].
  { intros key. destruct (truth (dict_get cfg key)); [right|left]; congruence. }
  - left. destruct (validate_omitted cfg) as (missing & Hne & _ & Hv).
    + eapply Exists_impl; [|exact Hex]. intros key. apply truth_omitted.
    + exists missing. split; [assumption|].
      apply init_validation_error in Hv. congruence.
  - right.
    assert (Hall : Forall (supplied cfg) required_keys).
    { apply Forall_forall. intros key Hin.
      destruct (supplied_or_omitted cfg key) as [Hs|Ho]; [assumption|].
      exfalso. apply Hnex. apply Exists_exists. exists key.
      split; [assumption | apply truth_omitted; assumption]. }
    split; [assumption|].
    unfold __init__ in H. rewrite (validate_supplied _ Hall) in H.
    simpl in H. rewrite Forall_forall in Hall.
    unfold _setup_azure_credentials, _initialize_langchain_client in H.
    rewrite !dict_getitem_supplied in H
      by (apply Hall; unfold required_keys; simpl; tauto).
    simpl in H.
    destruct (ClientSecretCredential _ _ _) as [cred|e'] eqn:Hc.
    + right. exists cred. split; [reflexivity|]. simpl in H.
      destruct (AzureChatOpenAI _) as [model|e''] eqn:Hm;
        [discriminate | simpl in H; congruence].
    + left. simpl in H. congruence.
Qed.

(** X4: on a successful construction the credential was built from three
    non-empty strings, and the completion client from a non-empty
    endpoint and a token provider bound to that very credential and to the
    scope of the cognitive services. *)
Theorem library_constructors_get_checked_values (cfg : dict value)
    (client : AzureOpenAIClient) :
  __init__ cfg = Ok client ->
  exists tenant app secret endpoint args,
    tenant <> [] /\ app <> [] /\ secret <> [] /\ endpoint <> []
    /\ dict_lookup cfg (lit "azure_tenant_id") = Some (PyStr tenant)
    /\ dict_lookup cfg (lit "azure_client_id") = Some (PyStr app)
    /\ dict_lookup cfg (lit "azure_client_secret") = Some (PyStr secret)
    /\ dict_lookup cfg (lit "azure_endpoint") = Some (PyStr endpoint)
    /\ ClientSecretCredential (PyStr tenant) (PyStr app) (PyStr secret)
       = Ok (credential client)
    /\ AzureChatOpenAI args = Ok (llm client)
    /\ azure_endpoint args = PyStr endpoint
    /\ azure_ad_token_provider args
       = {| provider_credential := credential client;
            provider_scope :=
              lit "https://cognitiveservices.azure.com/.default" |}.
Proof.
  intros H. apply init_Ok_inv in H. destruct H as (_ & Hall & Hc & Hm).
  rewrite Forall_forall in Hall.
  destruct (Hall (lit "azure_tenant_id")) as (c1 & s1 & E1);
    [unfold required_keys; simpl; tauto|].
  destruct (Hall (lit "azure_client_id")) as (c2 & s2 & E2);
    [unfold required_keys; simpl; tauto|].
  destruct (Hall (lit "azure_client_secret")) as (c3 & s3 & E3);
    [unfold required_keys; simpl; tauto|].
  destruct (Hall (lit "azure_endpoint")) as (c4 & s4 & E4);
    [unfold required_keys; simpl; tauto|].
  unfold dict_get in Hc, Hm. rewrite E1, E2, E3 in Hc. rewrite E4 in Hm.
  exists (c1 :: s1), (c2 :: s2), (c3 :: s3), (c4 :: s4).
  eexists. repeat split; try discriminate; try eassumption; reflexivity.
Qed.


End MoreConstruction.

(** ** More on stripping *)

Lemma lstrip_app_space (l x : str) :
  Forall (fun c => isspace c = true) l -> lstrip (l ++ x) = lstrip x.
Proof.
  induction 1 as [|c l Hc _ IH]; simpl; [reflexivity|].
  rewrite Hc. exact IH.
Qed.

Lemma lstrip_all_space (s : str) :
  lstrip s = [] <-> Forall (fun c => isspace c = true) s.
Proof.
  split.
  - intros H. destruct (lstrip_spec s) as (l & E & Hl & _).
    rewrite H, app_nil_r in E. subst l. assumption.
  - intros H. rewrite <- (app_nil_r s). rewrite lstrip_app_space; auto.
Qed.

Lemma lstrip_head (x : str) :
  (forall c rest, x = c :: rest -> isspace c = false) -> lstrip x = x.
Proof.
  destruct x as [|c rest]; [reflexivity|]. intros H. simpl.
  rewrite (H c rest eq_refl). reflexivity.
Qed.

Lemma strip_all_space (s : str) :
  strip s = [] <-> Forall (fun c => isspace c = true) s.
Proof.
  unfold strip, rstrip. split.
  - intros H. apply (f_equal (@rev N)) in H. rewrite rev_involutive in H.
    simpl in H. apply lstrip_all_space in H. apply Forall_rev in H.
    rewrite rev_involutive in H.
    destruct (lstrip_spec s) as (l & E & Hl & _). rewrite E.
    apply Forall_app. split; assumption.
  - intros H. apply lstrip_all_space in H. rewrite H. reflexivity.
Qed.

(** X8: [strip] returns what lies between the whitespace at the two
    ends, inner whitespace included: a string that neither starts nor ends
    with whitespace comes back as it is from any whitespace around it. *)
Theorem strip_keeps_core (l core r : str) :
  Forall (fun c => isspace c = true) l ->
  Forall (fun c => isspace c = true) r ->
  (forall c rest, core = c :: rest -> isspace c = false) ->
  (forall c front, core = front ++ [c] -> isspace c = false) ->
  strip (l ++ core ++ r) = core.
Proof.
  intros Hl Hr Hhead Hlast. unfold strip.
  rewrite lstrip_app_space by assumption.
  destruct core as [|c rest].
  - simpl. apply lstrip_all_space in Hr. rewrite Hr. reflexivity.
  - assert (E : lstrip ((c :: rest) ++ r) = (c :: rest) ++ r).
    { apply lstrip_head. intros c' rest' H. simpl in H. inversion H; subst.
      apply (Hhead c' rest eq_refl). }
    rewrite E. unfold rstrip. rewrite rev_app_distr.
    rewrite lstrip_app_space by (apply Forall_rev; assumption).
    rewrite lstrip_head; [apply rev_involutive|].
    intros c' rest' H. apply (Hlast c' (rev rest')).
    rewrite <- (rev_involutive (c :: rest)), H. reflexivity.
Qed.

(** ** More on the parser *)

Lemma emit_Raise (c : chunk) (r : result (list chunk)) (e : exn) :
  emit c r = Raise e -> r = Raise e.
Proof. destruct r; simpl; congruence. Qed.

Lemma scan_raises_ValueError_upto (n : nat) :
  forall (s : str) (m : mode) (e : exn),
    List.length s <= n -> scan s m = Raise e -> exists msg, e = ValueError msg.
Proof.
  induction n as [|n IH]; intros s m e Hlen H.
  - destruct s; [|simpl in Hlen; lia].
    destruct m as [[|? ?]| | | | |]; simpl in H;
      try discriminate; inversion H; eauto.
  - destruct s as [|c rest].
    + destruct m as [[|? ?]| | | | |]; simpl in H;
        try discriminate; inversion H; eauto.
    + simpl in Hlen.
      assert (Hrest : forall m' e', scan rest m' = Raise e' ->
                                    exists msg, e' = ValueError msg)
        by (intros m' e' H'; apply (IH rest m' e'); [lia | exact H']).
      assert (Htail : forall d rest' m' e',
                 rest = d :: rest' -> scan rest' m' = Raise e' ->
                 exists msg, e' = ValueError msg)
        by (intros d rest' m' e' E H'; subst rest; simpl in Hlen;
            apply (IH rest' m' e'); [lia | exact H']).
      destruct m as [text|text name|text name|text name|text name conv
                     |text name conv depth spec]; simpl in H.
      * destruct (N.eqb c LBRACE).
        { destruct rest as [|d rest']; [inversion H; eauto|].
          destruct (N.eqb d LBRACE).
          - apply emit_Raise in H. eapply Htail; [reflexivity | exact H].
          - eapply Hrest; exact H. }
        destruct (N.eqb c RBRACE).
        { destruct rest as [|d rest']; [inversion H; eauto|].
          destruct (N.eqb d RBRACE).
          - apply emit_Raise in H. eapply Htail; [reflexivity | exact H].
          - inversion H; eauto. }
        eapply Hrest; exact H.
      * destruct (N.eqb c LBRACE); [inversion H; eauto|].
        destruct (N.eqb c LBRACKET); [eapply Hrest; exact H|].
        destruct (N.eqb c RBRACE);
          [apply emit_Raise in H; eapply Hrest; exact H|].
        destruct (N.eqb c COLON); [eapply Hrest; exact H|].
        destruct (N.eqb c BANG); eapply Hrest; exact H.
      * destruct (N.eqb c RBRACKET); eapply Hrest; exact H.
      * eapply Hrest; exact H.
      * destruct (N.eqb c RBRACE);
          [apply emit_Raise in H; eapply Hrest; exact H|].
        destruct (N.eqb c COLON); [eapply Hrest; exact H|].
        inversion H; eauto.
      * destruct (N.eqb c LBRACE); [eapply Hrest; exact H|].
        destruct (N.eqb c RBRACE); [|eapply Hrest; exact H].
        destruct depth as [|[|depth']];
          try (apply emit_Raise in H); eapply Hrest; exact H.
Qed.

Lemma formatter_parse_raises_ValueError (tpl : str) (e : exn) :
  formatter_parse tpl = Raise e -> exists msg, e = ValueError msg.
Proof.
  apply (scan_raises_ValueError_upto (List.length tpl)). apply Nat.le_refl.
Qed.

Lemma scan_plain (pre text rest : str) :
  forallb (fun c => negb (is_brace c)) pre = true ->
  scan (pre ++ rest) (InText text) = scan rest (InText (text ++ pre)).
Proof.
  revert text. induction pre as [|c pre IH]; intros text H; simpl.
  - rewrite app_nil_r. reflexivity.
  - simpl in H. apply andb_true_iff in H. destruct H as [Hc Hpre].
    apply negb_true_iff in Hc. unfold is_brace in Hc.
    apply orb_false_iff in Hc. destruct Hc as [E1 E2].
    rewrite E1, E2, IH by assumption.
    rewrite <- app_assoc. reflexivity.
Qed.

Lemma parse_single_closing (pre post : str) :
  forallb (fun c => negb (is_brace c)) pre = true ->
  (forall rest, post <> RBRACE :: rest) ->
  formatter_parse (pre ++ RBRACE :: post)
  = Raise (ValueError (lit "Single '}' encountered in format string")).
Proof.
  intros Hpre Hpost. unfold formatter_parse. rewrite scan_plain by assumption.
  destruct post as [|d post']; [reflexivity|].
  simpl. destruct (N.eqb d RBRACE) eqn:E; [|reflexivity].
  apply N.eqb_eq in E. subst d. exfalso. apply (Hpost post'). reflexivity.
Qed.

Lemma parse_trailing_opening (pre : str) :
  forallb (fun c => negb (is_brace c)) pre = true ->
  formatter_parse (pre ++ [LBRACE])
  = Raise (ValueError (lit "Single '{' encountered in format string")).
Proof.
  intros Hpre. unfold formatter_parse. rewrite scan_plain by assumption.
  reflexivity.
Qed.

(** ** More on the two calls *)

Section MoreCalls.

Context {L : Library}.

(** X6: an exception of the completion request (authentication,
    transport, service) reaches the caller as it was raised; the client
    object is unchanged and the world is the one the request left. *)
Theorem library_error_propagates (k : call) (st : state)
    (msgs : list BaseMessage) (e : exn) (w' : World) :
  call_messages k = Ok msgs ->
  llm_invoke (llm (fst st)) msgs (snd st) = (Raise e, w') ->
  run k st = (Raise e, (fst st, w')).
Proof.
  intros Hm Hi. rewrite run_sends, Hm. unfold send. rewrite Hi. reflexivity.
Qed.

(** X7: a call returns the empty string exactly when the body of the
    completion is empty or made of whitespace only. *)
Theorem blank_body_gives_empty_string (k : call) (st : state)
    (msgs : list BaseMessage) (body : str) (w' : World) :
  call_messages k = Ok msgs ->
  llm_invoke (llm (fst st)) msgs (snd st) = (Ok body, w') ->
  (fst (run k st) = Ok [] <-> Forall (fun c => isspace c = true) body).
Proof.
  intros Hm Hi.
  rewrite (response_is_stripped_aux k st msgs body w' Hm Hi). simpl.
  rewrite <- strip_all_space. split; [intros H; inversion H | intros ->];
    reflexivity.
Qed.

Lemma fill_agree (ps : list piece) (v v' : dict str) :
  (forall n, In n (holes ps) -> dict_lookup v' n = dict_lookup v n) ->
  fill ps v' = fill ps v.
Proof.
  induction ps as [|[s|name] ps IH]; intros H; simpl.
  - reflexivity.
  - rewrite IH by exact H. reflexivity.
  - rewrite (H name) by (left; reflexivity).
    rewrite IH by (intros n Hn; apply H; right; exact Hn). reflexivity.
Qed.

Lemma template_sends_fill (ps : list piece) (variables : dict str)
    (system_message : option str) (st : state) :
  Forall (fun name => is_identifier name = true) (holes ps) ->
  Forall (fun name => dict_lookup variables name <> None) (holes ps) ->
  dict_lookup variables (lit "self") = None ->
  chat_with_template (render ps) variables system_message st
  = send (system_messages system_message
          ++ [HumanMessage (fill ps variables)]) st.
Proof.
  intros Hid Hin Hself. rewrite chat_with_template_sends.
  rewrite (prompt_messages_supplied _ _ _ (piece_chunks ps [])).
  - rewrite vformat_piece_chunks by assumption. reflexivity.
  - apply parse_render; assumption.
  - rewrite chunk_fields_piece_chunks. assumption.
  - rewrite chunk_fields_piece_chunks. assumption.
  - assumption.
Qed.


(** X10: what is sent depends on the entries of the placeholders only:
    two variable mappings that agree on them give the same call, so
    entries the template does not use are ignored. *)
Theorem unused_entries_are_ignored (ps : list piece) (v v' : dict str)
    (system_message : option str) (st : state) :
  Forall (fun name => is_identifier name = true) (holes ps) ->
  Forall (fun name => dict_lookup v name <> None) (holes ps) ->
  (forall n, In n (holes ps) -> dict_lookup v' n = dict_lookup v n) ->
  dict_lookup v (lit "self") = None ->
  dict_lookup v' (lit "self") = None ->
  chat_with_template (render ps) v' system_message st
  = chat_with_template (render ps) v system_message st.
Proof.
  intros Hid Hin Hagree Hs Hs'.
  rewrite !template_sends_fill; try assumption.
  - rewrite (fill_agree ps v v' Hagree). reflexivity.
  - rewrite Forall_forall in *. intros n Hn.
    rewrite (Hagree n Hn). apply Hin. exact Hn.
Qed.

(** X11: the system instruction is put in front of the messages built
    without it and changes nothing else: whether the prompt can be built,
    and the exception when it cannot, do not depend on it. *)
Theorem system_message_is_prepended (tpl : str) (variables : dict str)
    (system_message : option str) :
  prompt_messages tpl variables system_message
  = (msgs <- prompt_messages tpl variables None ;;
     Ok (system_messages system_message ++ msgs)).
Proof.
  unfold prompt_messages.
  destruct (HumanMessagePromptTemplate_from_template tpl) as [p|e];
    [|reflexivity].
  simpl bind.
  destruct system_message as [[|c s]|]; simpl system_messages;
    try (destruct (ChatPromptTemplate_invoke _ variables); reflexivity).
  unfold ChatPromptTemplate_invoke, ChatPromptTemplate_from_messages.
  simpl.
  destruct (filter _ _); [|reflexivity].
  destruct (str_in _ _); [reflexivity|].
  destruct (PromptTemplate_format p variables); reflexivity.
Qed.



Lemma raise_without_sending (tpl : str) (variables : dict str)
    (system_message : option str) (st : state) (e : exn) :
  formatter_parse tpl = Raise e ->
  chat_with_template tpl variables system_message st = (Raise e, st).
Proof.
  intros H. rewrite chat_with_template_sends.
  rewrite (prompt_messages_malformed _ _ _ _ H). reflexivity.
Qed.

(** X13: a text with a brace that is neither doubled nor part of a
    placeholder is refused by both calls before anything is sent: a
    closing brace after text without braces, unless another one follows
    it, and an opening brace at the very end. *)
Theorem unbalanced_brace_is_refused (pre post : str)
    (variables : dict str) (system_message : option str) (st : state) :
  forallb (fun c => negb (is_brace c)) pre = true ->
  (forall rest, post <> RBRACE :: rest) ->
  chat (pre ++ RBRACE :: post) system_message st
  = (Raise (ValueError (lit "Single '}' encountered in format string")), st)
  /\ chat_with_template (pre ++ RBRACE :: post) variables system_message st
     = (Raise (ValueError (lit "Single '}' encountered in format string")),
        st)
  /\ chat (pre ++ [LBRACE]) system_message st
     = (Raise (ValueError (lit "Single '{' encountered in format string")),
        st)
  /\ chat_with_template (pre ++ [LBRACE]) variables system_message st
     = (Raise (ValueError (lit "Single '{' encountered in format string")),
        st).
Proof.
  intros Hpre Hpost. rewrite !chat_is_template.
  repeat split; apply raise_without_sending;
    try (apply parse_single_closing; assumption);
    apply parse_trailing_opening; assumption.
Qed.

Lemma vformat_no_fields (chunks : list chunk) (variables : dict str) :
  chunk_fields chunks = [] -> exists text, vformat chunks variables = Ok text.
Proof.
  induction chunks as [|[text [f|]] chunks IH]; simpl; intros H.
  - eauto.
  - discriminate.
  - destruct (IH H) as [tail E]. rewrite E. simpl. eauto.
Qed.

Lemma chat_prompt_errors (m : str) (system_message : option str)
    (e : exn) :
  prompt_messages m [] system_message = Raise e -> template_error e.
Proof.
  rewrite system_message_is_prepended.
  destruct (prompt_messages m [] None) as [msgs|e'] eqn:H;
    [discriminate|].
  simpl. intros E. inversion E; subst e'. clear E. revert H.
  unfold prompt_messages, HumanMessagePromptTemplate_from_template,
    get_template_variables.
  destruct (formatter_parse m) as [chunks|e0] eqn:Hp.
  - simpl bind. destruct (existsb _ _); [intros H; inversion H; exact I|].
    simpl bind. unfold ChatPromptTemplate_invoke.
    match goal with
    | |- context [filter ?f ?l] => destruct (filter f l) as [|x xs] eqn:Hf
    end; [|intros H; inversion H; exact I].
    assert (Hnone : chunk_fields chunks = []).
    { destruct (chunk_fields chunks) as [|n ns] eqn:Hc; [reflexivity|].
      exfalso.
      assert (Hin : In n (@nil str)); [|contradiction].
      rewrite <- Hf. apply filter_In. split; [|reflexivity].
      apply (chat_input_variables_In None). cbn [input_variables].
      apply nodup_In. left. reflexivity. }
    simpl. unfold PromptTemplate_format. simpl template. rewrite Hp.
    simpl bind.
    destruct (vformat_no_fields chunks [] Hnone) as [text E].
    rewrite E. discriminate.
  - simpl. intros H. inversion H; subst.
    destruct (formatter_parse_raises_ValueError m e Hp) as [msg ->].
    exact I.
Qed.

(** X14: every exception of [chat] is either a template error raised
    before anything is sent, the state being as it was, or the exception
    of the completion request itself. *)
Theorem chat_exceptions (m : str) (system_message : option str)
    (st st' : state) (e : exn) :
  chat m system_message st = (Raise e, st') ->
  (template_error e /\ st' = st)
  \/ (exists msgs w',
        prompt_messages m [] system_message = Ok msgs
        /\ llm_invoke (llm (fst st)) msgs (snd st) = (Raise e, w')
        /\ st' = (fst st, w')).
Proof.
  rewrite chat_is_template, chat_with_template_sends.
  destruct (prompt_messages m [] system_message) as [msgs|e0] eqn:Hm.
  - unfold send.
    destruct (llm_invoke (llm (fst st)) msgs (snd st)) as [[body|e1] w] eqn:Hi;
      simpl; intros H; inversion H; subst.
    right. exists msgs, w. auto.
  - intros H. inversion H; subst. left.
    split; [eapply chat_prompt_errors; exact Hm | reflexivity].
Qed.

End MoreCalls.

(** ** The statements on sample runs *)

#[local] Existing Instance Scripted.library.

Lemma sample_construction : __init__ Sample.cfg = Ok Sample.client.
Proof. vm_compute. reflexivity. Qed.


Lemma sample_partial_message :
  __init__ Sample.cfg_partial
  = Raise
      (ValueError
         (lit "Missing required secrets: ['azure_tenant_id', 'azure_endpoint']")).
Proof. vm_compute. reflexivity. Qed.



Lemma sampling_parameters_fixed_witness :
  temperature (llm Sample.client) = 0x1.999999999999ap-4%float
  /\ max_tokens (llm Sample.client) = 4000%Z
  /\ get_langchain
       (fst (snd (run (Chat (lit "Hi") None)
                      (Sample.client, Sample.answering))))
     = llm Sample.client.
Proof.
  destruct (sampling_parameters_fixed Sample.cfg) as [H1 H2].
  destruct (H1 (PyStr (lit "https://example.openai.azure.com")) Sample.cred)
    as [Ht Hm].
  split; [exact Ht|]. split; [exact Hm|].
  destruct (H2 Sample.client) as [_ Hk]; [vm_compute; reflexivity|].
  apply Hk.
Defined.




Lemma response_is_stripped_witness :
  run (Chat (lit "Hi") (Some (lit "S"))) (Sample.client, Sample.answering)
  = (Ok (lit "Hi there"),
     (Sample.client,
      {| Scripted.sent := [[SystemMessage (lit "S"); HumanMessage (lit "Hi")]];
         Scripted.replies := [] |})).
Proof.
  apply (response_is_stripped
           (Chat (lit "Hi") (Some (lit "S")))
           (Sample.client, Sample.answering)
           [SystemMessage (lit "S"); HumanMessage (lit "Hi")]
           Sample.padded_body).
  - vm_compute. reflexivity.
  - vm_compute. reflexivity.
Defined.

Lemma calls_leave_client_unchanged_witness :
  fst (run (Chat (lit "Hi") None) (Sample.client, Sample.flaky))
  = Raise (LibraryError (lit "timed out"))
  /\ fst (run (ChatWithTemplate (lit "Hello {name}") Sample.ada None)
              (snd (run (Chat (lit "Hi") None)
                        (Sample.client, Sample.flaky))))
     = Ok (lit "Hi there").
Proof.
  split; [vm_compute; reflexivity|].
  destruct (calls_leave_client_unchanged
              (Chat (lit "Hi") None)
              (ChatWithTemplate (lit "Hello {name}") Sample.ada None)
              (Sample.client, Sample.flaky)) as (_ & _ & H).
  rewrite (H [HumanMessage (lit "Hello Ada")] Sample.padded_body
             {| Scripted.sent :=
                  [[HumanMessage (lit "Hi")];
                   [HumanMessage (lit "Hello Ada")]];
                Scripted.replies := [] |}).
  - reflexivity.
  - vm_compute. reflexivity.
  - vm_compute. reflexivity.
Defined.

Lemma empty_system_message_is_absent_witness :
  prompt_messages (lit "Hello {name}") Sample.ada (Some [])
  = Ok [HumanMessage (lit "Hello Ada")]
  /\ ~ In (SystemMessage (lit "S")) [HumanMessage (lit "Hello Ada")].
Proof.
  split; [vm_compute; reflexivity|].
  destruct (empty_system_message_is_absent
              (lit "Hi") (lit "Hello {name}") Sample.ada) as (_ & _ & H).
  apply H. vm_compute. reflexivity.
Defined.

(** The examples of the specification, run. *)
Lemma sample_chat_two_entries :
  run (Chat (lit "Hi") (Some (lit "S"))) (Sample.client, Sample.answering)
  = (Ok (lit "Hi there"),
     (Sample.client,
      {| Scripted.sent := [[SystemMessage (lit "S"); HumanMessage (lit "Hi")]];
         Scripted.replies := [] |})).
Proof. vm_compute. reflexivity. Qed.

Lemma sample_chat_with_braces :
  run (Chat (lit "What does {x} mean in Python?") (Some (lit "S")))
      (Sample.client, Sample.answering)
  = (Raise (KeyError [lit "x"]), (Sample.client, Sample.answering)).
Proof. vm_compute. reflexivity. Qed.

(** ** Requests on the scripted library *)

Lemma scripted_run (k : call) (client : AzureOpenAIClient)
    (w : Scripted.world) :
  exists r w',
    run k (client, w) = (r, (client, w'))
    /\ Scripted.sent w' = Scripted.sent w ++ own_request k.
Proof.
  rewrite run_sends. unfold own_request.
  destruct (call_messages k) as [msgs|e].
  - unfold send. simpl. unfold Scripted.invoke.
    destruct (Scripted.replies w) as [|r rest]; simpl; eauto.
  - exists (Raise e), w. rewrite app_nil_r. split; reflexivity.
Qed.

(** X15: calls made one after the other on a client leave it as it was
    and make one request each, in order, holding the messages of that
    call alone: a call whose prompt cannot be built makes none, and no
    request carries anything of an earlier call. *)
Theorem request_log (ks : list call) (client : AzureOpenAIClient)
    (w : Scripted.world) :
  fst (snd (run_all ks (client, w))) = client
  /\ Scripted.sent (snd (snd (run_all ks (client, w))))
     = Scripted.sent w ++ flat_map own_request ks
  /\ List.length (fst (run_all ks (client, w))) = List.length ks.
Proof.
  revert w. induction ks as [|k ks IH]; intros w.
  - simpl. rewrite app_nil_r. auto.
  - destruct (scripted_run k client w) as (r & w' & E & Hs).
    assert (Hlet : forall p : list (result str) * state,
               (let (rs, st'') := p in (r :: rs, st''))
               = (r :: fst p, snd p))
      by (intros [rs st'']; reflexivity).
    simpl run_all. rewrite E, Hlet. simpl.
    destruct (IH w') as (H1 & H2 & H3).
    split; [exact H1|]. split.
    + etransitivity; [exact H2|]. rewrite Hs, <- app_assoc. reflexivity.
    + f_equal. exact H3.
Qed.

(** ** The further statements on sample runs *)


Lemma optional_settings_passed_as_given_witness :
  exists args,
    AzureChatOpenAI args = Ok (llm Sample.client_no_deployment)
    /\ azure_deployment args = PyNone.
Proof.
  apply (optional_settings_passed_as_given
           Sample.cfg_no_deployment Sample.client_no_deployment PyNone).
  - vm_compute. reflexivity.
  - reflexivity.
Defined.

Lemma construction_errors_witness :
  (exists missing,
     missing <> []
     /\ ValueError
          (lit "Missing required secrets: ['azure_tenant_id', 'azure_endpoint']")
        = ValueError (lit "Missing required secrets: " ++ repr_list missing))
  \/ (Forall (supplied Sample.cfg_partial) required_keys
      /\ (ClientSecretCredential
            (dict_get Sample.cfg_partial (lit "azure_tenant_id"))
            (dict_get Sample.cfg_partial (lit "azure_client_id"))
            (dict_get Sample.cfg_partial (lit "azure_client_secret"))
          = Raise
              (ValueError
                 (lit "Missing required secrets: ['azure_tenant_id', 'azure_endpoint']"))
          \/ exists cred,
               ClientSecretCredential
                 (dict_get Sample.cfg_partial (lit "azure_tenant_id"))
                 (dict_get Sample.cfg_partial (lit "azure_client_id"))
                 (dict_get Sample.cfg_partial (lit "azure_client_secret"))
               = Ok cred
               /\ AzureChatOpenAI
                    (langchain_kwargs Sample.cfg_partial
                       (dict_get Sample.cfg_partial (lit "azure_endpoint"))
                       cred)
                  = Raise
                      (ValueError
                         (lit "Missing required secrets: ['azure_tenant_id', 'azure_endpoint']")))).
Proof.
  apply (construction_errors Sample.cfg_partial).
  vm_compute. reflexivity.
Defined.

Lemma library_constructors_get_checked_values_witness :
  exists tenant app secret endpoint args,
    tenant <> [] /\ app <> [] /\ secret <> [] /\ endpoint <> []
    /\ dict_lookup Sample.cfg (lit "azure_tenant_id") = Some (PyStr tenant)
    /\ dict_lookup Sample.cfg (lit "azure_client_id") = Some (PyStr app)
    /\ dict_lookup Sample.cfg (lit "azure_client_secret")
       = Some (PyStr secret)
    /\ dict_lookup Sample.cfg (lit "azure_endpoint") = Some (PyStr endpoint)
    /\ ClientSecretCredential (PyStr tenant) (PyStr app) (PyStr secret)
       = Ok (credential Sample.client)
    /\ AzureChatOpenAI args = Ok (llm Sample.client)
    /\ azure_endpoint args = PyStr endpoint
    /\ azure_ad_token_provider args
       = {| provider_credential := credential Sample.client;
            provider_scope :=
              lit "https://cognitiveservices.azure.com/.default" |}.
Proof.
  apply (library_constructors_get_checked_values Sample.cfg Sample.client).
  vm_compute. reflexivity.
Defined.


Lemma library_error_propagates_witness :
  run (Chat (lit "Hi") None) (Sample.client, Sample.refusing)
  = (Raise (LibraryError (lit "unauthorized")),
     (Sample.client,
      {| Scripted.sent := [[HumanMessage (lit "Hi")]];
         Scripted.replies := [] |})).
Proof.
  apply (library_error_propagates
           (Chat (lit "Hi") None) (Sample.client, Sample.refusing)
           [HumanMessage (lit "Hi")]).
  - vm_compute. reflexivity.
  - vm_compute. reflexivity.
Defined.

Lemma blank_body_gives_empty_string_witness :
  fst (run (Chat (lit "Hi") None) (Sample.client, Sample.blank)) = Ok [].
Proof.
  apply (blank_body_gives_empty_string
           (Chat (lit "Hi") None) (Sample.client, Sample.blank)
           [HumanMessage (lit "Hi")] (lit "   ")
           {| Scripted.sent := [[HumanMessage (lit "Hi")]];
              Scripted.replies := [] |}).
  - vm_compute. reflexivity.
  - vm_compute. reflexivity.
  - repeat constructor.
Defined.

Lemma strip_keeps_core_witness :
  strip Sample.padded_body = lit "Hi there".
Proof.
  apply (strip_keeps_core (lit "  ") (lit "Hi there") (lit "  " ++ [10%N])).
  - repeat constructor.
  - repeat constructor.
  - intros c rest H. inversion H. reflexivity.
  - intros c front H.
    apply (f_equal (@rev N)) in H. rewrite rev_app_distr in H.
    simpl in H. inversion H. reflexivity.
Defined.


Lemma unused_entries_are_ignored_witness :
  chat_with_template (lit "Hello {name}") Sample.ada_more None
    (Sample.client, Sample.answering)
  = chat_with_template (lit "Hello {name}") Sample.ada None
      (Sample.client, Sample.answering).
Proof.
  apply (unused_entries_are_ignored
           Sample.hello Sample.ada Sample.ada_more None
           (Sample.client, Sample.answering)).
  - repeat constructor.
  - repeat constructor. discriminate.
  - intros n [H|[]]. subst n. reflexivity.
  - reflexivity.
  - reflexivity.
Defined.


Lemma unbalanced_brace_is_refused_witness :
  chat (lit "close } here") None (Sample.client, Sample.answering)
  = (Raise (ValueError (lit "Single '}' encountered in format string")),
     (Sample.client, Sample.answering))
  /\ chat (lit "close {") None (Sample.client, Sample.answering)
     = (Raise (ValueError (lit "Single '{' encountered in format string")),
        (Sample.client, Sample.answering)).
Proof.
  destruct (unbalanced_brace_is_refused
              (lit "close ") (lit " here") [] None
              (Sample.client, Sample.answering)) as (H1 & _ & H3 & _).
  - reflexivity.
  - intros rest H. discriminate.
  - split; [exact H1 | exact H3].
Defined.

Lemma chat_exceptions_witness :
  (template_error (KeyError [lit "x"])
   /\ (Sample.client, Sample.answering) = (Sample.client, Sample.answering))
  \/ (exists msgs w',
        prompt_messages (lit "What does {x} mean in Python?") [] None
        = Ok msgs
        /\ llm_invoke (llm Sample.client) msgs Sample.answering
           = (Raise (KeyError [lit "x"]), w')
        /\ (Sample.client, Sample.answering) = (Sample.client, w')).
Proof.
  apply (chat_exceptions
           (lit "What does {x} mean in Python?") None
           (Sample.client, Sample.answering)).
  vm_compute. reflexivity.
Defined.

Lemma sample_request_log :
  Scripted.sent
    (snd (snd (run_all
                 [ Chat (lit "Hi") None;
                   ChatWithTemplate (lit "Hello {name}") [] None;
                   ChatWithTemplate (lit "Hello {name}") Sample.ada
                                    (Some (lit "S")) ]
                 (Sample.client, Sample.flaky))))
  = [ [HumanMessage (lit "Hi")];
      [SystemMessage (lit "S"); HumanMessage (lit "Hello Ada")] ].
Proof. vm_compute. reflexivity. Qed.
